(** * Token makers of Test_Webapp_template: a shallow embedding

    The package [token] issues and verifies authentication tokens in two
    formats: a signed one ([JWTMaker], jwt_maker.go) and an encrypted one
    ([PasetoMaker], paseto_maker.go), both behind the interface [Maker]
    (maker.go).

    Go values are modelled as follows.
    - [string] is a byte string: Rocq's [string], one [ascii] per byte, and
      [len] is its byte length.
    - [time.Time] is an instant in nanoseconds ([Z]); [time.Duration] is a
      signed number of nanoseconds ([Z]).
    - A multiple return [(T, error)] is a pair whose components are
      [option]s: [None] is Go's [nil].
    - The clock and the random source are read from an explicit [World].
    - The third-party packages (jwt-go, paseto, chacha20poly1305) are records
      of operations; what the proofs need of them is stated as a contract. *)

From Stdlib Require Import ZArith NArith String Ascii List Bool Lia.
From Stdlib Require Import DecimalString DecimalZ.
Import ListNotations.

Open Scope string_scope.
Open Scope Z_scope.

(** ** Go basics *)

Definition len (s : string) : Z := Z.of_nat (String.length s).

(** The error values that flow through the package.  [ErrInvalidToken] and
    [ErrExpiredToken] are the package's two sentinels; [Errorf] is an error
    built by [fmt.Errorf]; [External] is an error raised inside a
    third-party package; [ValidationError] is jwt-go's [*ValidationError]
    with its [Inner] error and its [Errors] bit field. *)
#[warnings="-register-all"]
Inductive error : Type :=
| ErrInvalidToken
| ErrExpiredToken
| Errorf (msg : string)
| External (msg : string)
| ValidationError (Inner : option error) (Errors : N).

(** [errors.Is(err, ErrExpiredToken)]: a sentinel is found by identity; none
    of the other error values of this model unwraps to it. *)
Definition errors_Is_ErrExpiredToken (err : option error) : bool :=
  match err with
  | Some ErrExpiredToken => true
  | _ => false
  end.

(** ** The environment a call reads *)

Definition UUID := string.

Record World : Type := mkWorld {
  Now : Z;                         (* time.Now() *)
  NewRandom : UUID * option error; (* uuid.NewRandom() *)
  RandBytes : string               (* bytes read from crypto/rand *)
}.

(** ** Payload *)

Record Payload : Type := mkPayload {
  ID : UUID;
  Username : string;
  Role : string;
  IssuedAt : Z;
  ExpiredAt : Z
}.

(** The zero value [Payload{}]. *)
Definition zeroPayload : Payload := mkPayload "" "" "" 0 0.

(** Modelled from the spec: payload.go, which declares [NewPayload], is not
    among the source files.  The spec: the identifier is generated at
    creation and a failure to generate it is the construction error,
    propagated as it is; [issuedAt] is the time of creation; [expiredAt] is
    [issuedAt + duration].  The result is a pointer, [None] for [nil]. *)
Definition NewPayload (w : World) (username role : string) (duration : Z)
  : option Payload * option error :=
  match NewRandom w with
  | (_, Some err) => (None, Some err)
  | (tokenID, None) =>
      (Some {| ID := tokenID;
               Username := username;
               Role := role;
               IssuedAt := Now w;
               ExpiredAt := Now w + duration |}, None)
  end.

(** Modelled from the spec: [Payload.Valid] is declared in payload.go too.
    The spec: a payload is valid if and only if the current time is at or
    before [expiredAt]; past it the error is [ErrExpiredToken]. *)
Definition Valid (now : Z) (payload : Payload) : option error :=
  if now >? ExpiredAt payload then Some ErrExpiredToken else None.

(** ** github.com/dgrijalva/jwt-go, as far as the package calls it *)

Module jwt.

(** The registered signing methods, by the [alg] name of the header. *)
Inductive SigningMethod : Type :=
| HS256 | HS384 | HS512
| RS256 | RS384 | RS512
| PS256 | PS384 | PS512
| ES256 | ES384 | ES512
| none.

Definition SigningMethodHS256 : SigningMethod := HS256.

(** The type assertion of a method to the pointer type
    [jwt.SigningMethodHMAC]: the three HS methods are the values of that
    type. *)
Definition isSigningMethodHMAC (m : SigningMethod) : bool :=
  match m with
  | HS256 | HS384 | HS512 => true
  | _ => false
  end.

(** A value of the interface [Claims]: either the package's [*Payload], or
    one of jwt-go's own claim types, of which only the outcome of its
    [Valid] method matters here (a [*ValidationError] when it fails). *)
Inductive Claims : Type :=
| PayloadClaims (p : Payload)
| LibraryClaims (invalid : option (string * N)).

Definition Claims_Valid (now : Z) (c : Claims) : option error :=
  match c with
  | PayloadClaims p => Valid now p
  | LibraryClaims None => None
  | LibraryClaims (Some (msg, flags)) =>
      Some (ValidationError (Some (External msg)) flags)
  end.

Record Token : Type := mkToken {
  Method : SigningMethod;
  TokenClaims : Claims;
  SigningString : string;   (* the first two segments, as received *)
  Signature : string        (* the third segment *)
}.

Definition ValidationErrorMalformed : N := 1.
Definition ValidationErrorUnverifiable : N := 2.
Definition ValidationErrorSignatureInvalid : N := 4.
Definition ValidationErrorClaimsInvalid : N := 512.

(** The primitives of the library: decoding of the three segments,
    checking a signature, and signing claims. *)
Record Lib : Type := mkLib {
  (* Parser.ParseUnverified(tokenString, claims): decoding into the claims
     object handed in; None when a segment does not decode or the header
     names no registered method *)
  ParseUnverified : string -> Claims -> option Token;
  (* SigningMethod.Verify(signingString, signature, key) == nil *)
  Verify : SigningMethod -> string -> string -> string -> bool;
  (* NewWithClaims(method, payload).SignedString(key) *)
  SignedString :
    SigningMethod -> option Payload -> string -> string * option error;
  (* the payloads whose JSON form decodes to the same payload *)
  encodable : Payload -> bool
}.

Definition Keyfunc : Type := Token -> option string * option error.

Section Parser.
Variable L : Lib.

(** [Parser.ParseWithClaims] of jwt-go v3: the key is looked up, then the
    claims are validated, then the signature is checked, and a failed
    signature check replaces [Inner].  The result is the error when it is
    not [nil], and the token otherwise. *)
Definition ParseWithClaims (now : Z) (tokenString : string)
           (claims : Claims) (keyFunc : Keyfunc) : Token + error :=
  match ParseUnverified L tokenString claims with
  | None =>
      inr (ValidationError (Some (External "token is malformed"))
                           ValidationErrorMalformed)
  | Some token =>
      match keyFunc token with
      | (_, Some err) =>
          inr (match err with
               | ValidationError _ _ => err
               | _ => ValidationError (Some err)
                                      ValidationErrorUnverifiable
               end)
      | (key, None) =>
          let vErr :=
            match Claims_Valid now (TokenClaims token) with
            | None => (None, 0%N)
            | Some (ValidationError inner flags) => (inner, flags)
            | Some err => (Some err, ValidationErrorClaimsInvalid)
            end in
          let verified :=
            match key with
            | Some k => Verify L (Method token) (SigningString token)
                               (Signature token) k
            | None => false
            end in
          let vErr :=
            if verified then vErr
            else (Some (External "signature is invalid"),
                  N.lor (snd vErr) ValidationErrorSignatureInvalid) in
          if (snd vErr =? 0)%N then inl token
          else inr (ValidationError (fst vErr) (snd vErr))
      end
  end.
End Parser.

End jwt.

(** ** github.com/aead/chacha20poly1305 and github.com/o1egl/paseto *)

Module chacha20poly1305.
Definition KeySize : Z := 32.
End chacha20poly1305.

Module paseto.

(** [*paseto.V2] with the two methods the package calls.  The footer
    argument is always [nil] in the package and is left out. *)
Record V2 : Type := mkV2 {
  (* Encrypt(key, payload, nil), with the random bytes it reads *)
  Encrypt : string -> option Payload -> string -> string * option error;
  (* Decrypt(token, key, payload, nil): the payload object it is handed,
     as it leaves it, and the error *)
  Decrypt : string -> string -> Payload -> Payload * option error;
  (* the payloads whose JSON form decodes to the same payload *)
  encodable : Payload -> bool
}.

End paseto.

(** ** The package [token] *)

(** maker.go declares the interface [Maker]; its two implementations are
    the records below, and a value of the interface holds one of them. *)
Record JWTMaker : Type := mkJWTMaker {
  secretKey : string
}.

Record PasetoMaker : Type := mkPasetoMaker {
  paseto_ : paseto.V2;
  symmetricKey : string
}.

Inductive Maker : Type :=
| MakerJWT (m : JWTMaker)
| MakerPaseto (m : PasetoMaker).

(** *** jwt_maker.go *)

Definition minSecretKeySize : Z := 32.

Module JWT.
Section WithLibrary.
Variable L : jwt.Lib.

Definition NewJWTMaker (secretKey : string)
  : option JWTMaker * option error :=
  if len secretKey <? minSecretKeySize then
    (None, Some (Errorf "invalid key size: must be at least 32 characters"))
  else
    (Some (mkJWTMaker secretKey), None).

Definition CreateToken (maker : JWTMaker) (w : World)
           (username role : string) (duration : Z)
  : string * option Payload * option error :=
  let '(payload, err) := NewPayload w username role duration in
  match err with
  | Some _ => ("", None, err)
  | None =>
      let '(token, err) :=
        jwt.SignedString L jwt.SigningMethodHS256 payload
                         (secretKey maker) in
      (token, payload, err)
  end.

Definition keyFunc (maker : JWTMaker) : jwt.Keyfunc :=
  fun token =>
    let ok := jwt.isSigningMethodHMAC (jwt.Method token) in
    if negb ok then (None, Some ErrInvalidToken)
    else (Some (secretKey maker), None).

Definition VerifyToken (maker : JWTMaker) (now : Z) (token : string)
  : option Payload * option error :=
  match jwt.ParseWithClaims L now token (jwt.PayloadClaims zeroPayload)
                            (keyFunc maker) with
  | inr err =>
      match err with
      | ValidationError Inner _ =>
          if errors_Is_ErrExpiredToken Inner
          then (None, Some ErrExpiredToken)
          else (None, Some ErrInvalidToken)
      | _ => (None, Some ErrInvalidToken)
      end
  | inl jwtToken =>
      match jwt.TokenClaims jwtToken with
      | jwt.PayloadClaims payload => (Some payload, None)
      | _ => (None, Some ErrInvalidToken)
      end
  end.
End WithLibrary.
End JWT.

(** *** paseto_maker.go *)

Module PASETO.

Definition CreateToken (maker : PasetoMaker) (w : World)
           (username role : string) (duration : Z)
  : string * option Payload * option error :=
  let '(payload, err) := NewPayload w username role duration in
  match err with
  | Some _ => ("", payload, err)
  | None =>
      let '(token, err) :=
        paseto.Encrypt (paseto_ maker) (symmetricKey maker) payload
                       (RandBytes w) in
      (token, payload, err)
  end.

Definition VerifyToken (maker : PasetoMaker) (now : Z) (token : string)
  : option Payload * option error :=
  let payload := zeroPayload in
  let '(payload, err) :=
    paseto.Decrypt (paseto_ maker) token (symmetricKey maker) payload in
  match err with
  | Some _ => (None, Some ErrInvalidToken)
  | None =>
      let err := Valid now payload in
      match err with
      | Some _ => (None, err)
      | None => (Some payload, None)
      end
  end.

Section WithLibrary.
(* paseto.NewV2() *)
Variable NewV2 : paseto.V2.

Definition NewPasetoMaker (symmetricKey : string)
  : option Maker * option error :=
  if len symmetricKey <? chacha20poly1305.KeySize then
    (None, Some (Errorf "invalid key size: must be at least 32 characters"))
  else
    let maker := {| paseto_ := NewV2; symmetricKey := symmetricKey |} in
    (Some (MakerPaseto maker), None).
End WithLibrary.

End PASETO.

(** *** maker.go: calls through the interface *)

Section Interface.
Variable L : jwt.Lib.

Definition Maker_CreateToken (maker : Maker)
  : World -> string -> string -> Z -> string * option Payload * option error :=
  match maker with
  | MakerJWT m => JWT.CreateToken L m
  | MakerPaseto m => PASETO.CreateToken m
  end.

Definition Maker_VerifyToken (maker : Maker)
  : Z -> string -> option Payload * option error :=
  match maker with
  | MakerJWT m => JWT.VerifyToken L m
  | MakerPaseto m => PASETO.VerifyToken m
  end.
End Interface.

(** ** What the package relies on from the libraries *)

(** The byte [0x00]. *)
Definition NUL : string := String Ascii.zero "".

(** jwt-go.  [sign_parse]: a token signed with an HMAC method decodes to its
    method and claims, and its signature checks under the signing key.
    [hmac_key_padding]: HMAC pads a key shorter than the hash's block (64
    bytes or more for the three HS methods) with zero bytes, so a key and
    the same key followed by a zero byte compute the same signatures. *)
Record JwtContract (L : jwt.Lib) : Prop := {
  sign_parse :
    forall m p key p0,
      jwt.isSigningMethodHMAC m = true ->
      jwt.encodable L p = true ->
      exists t tok,
        jwt.SignedString L m (Some p) key = (t, None) /\
        jwt.ParseUnverified L t (jwt.PayloadClaims p0) = Some tok /\
        jwt.Method tok = m /\
        jwt.TokenClaims tok = jwt.PayloadClaims p /\
        jwt.Verify L m (jwt.SigningString tok) (jwt.Signature tok) key = true;
  hmac_key_padding :
    forall m s sig key,
      jwt.isSigningMethodHMAC m = true ->
      len key < 64 ->
      jwt.Verify L m s sig (key ++ NUL) = jwt.Verify L m s sig key
}.

(** paseto v2.  [encrypt_decrypt]: under a key of the cipher's size, what
    [Encrypt] returns decrypts to the payload.  [encrypt_key_size]: the
    cipher is built from a key of exactly [KeySize] bytes and [Encrypt]
    fails, with an empty token, on any other. *)
Record PasetoContract (V : paseto.V2) : Prop := {
  encrypt_decrypt :
    forall key p rnd p0,
      len key = chacha20poly1305.KeySize ->
      paseto.encodable V p = true ->
      exists t,
        paseto.Encrypt V key (Some p) rnd = (t, None) /\
        paseto.Decrypt V t key p0 = (p, None);
  encrypt_key_size :
    forall key p rnd,
      len key <> chacha20poly1305.KeySize ->
      exists err, paseto.Encrypt V key p rnd = ("", Some err)
}.

(** ** A symbolic realisation of the libraries

    Tokens are text in which every part is framed, a MAC is the padded key
    followed by the signed text, and a ciphertext names the key it opens
    under.  It shows that the contracts can be met and lets the makers be
    evaluated on concrete inputs. *)

Module Sym.

(** Framing: every byte is preceded by ['1'] and the part ends with ['0']. *)
Fixpoint frame (s : string) : string :=
  match s with
  | EmptyString => "0"
  | String c r => String "1" (String c (frame r))
  end.

Fixpoint unframe (s : string) : option (string * string) :=
  match s with
  | String "0" rest => Some ("", rest)
  | String "1" (String c r) =>
      match unframe r with
      | Some (x, rest) => Some (String c x, rest)
      | None => None
      end
  | _ => None
  end.

Definition string_of_Z (z : Z) : string :=
  NilEmpty.string_of_int (Z.to_int z).

Definition Z_of_string (s : string) : option Z :=
  option_map Z.of_int (NilEmpty.int_of_string s).

Definition marshal (p : Payload) : string :=
  frame (ID p) ++ frame (Username p) ++ frame (Role p) ++
  frame (string_of_Z (IssuedAt p)) ++ frame (string_of_Z (ExpiredAt p)).

Definition unmarshal (s : string) : option Payload :=
  match unframe s with
  | Some (id, s1) =>
    match unframe s1 with
    | Some (username, s2) =>
      match unframe s2 with
      | Some (role, s3) =>
        match unframe s3 with
        | Some (iat, s4) =>
          match unframe s4 with
          | Some (exp, "") =>
              match Z_of_string iat, Z_of_string exp with
              | Some i, Some e => Some (mkPayload id username role i e)
              | _, _ => None
              end
          | _ => None
          end
        | None => None
        end
      | None => None
      end
    | None => None
    end
  | None => None
  end.

Definition alg (m : jwt.SigningMethod) : string :=
  match m with
  | jwt.HS256 => "HS256" | jwt.HS384 => "HS384" | jwt.HS512 => "HS512"
  | jwt.RS256 => "RS256" | jwt.RS384 => "RS384" | jwt.RS512 => "RS512"
  | jwt.PS256 => "PS256" | jwt.PS384 => "PS384" | jwt.PS512 => "PS512"
  | jwt.ES256 => "ES256" | jwt.ES384 => "ES384" | jwt.ES512 => "ES512"
  | jwt.none => "none"
  end.

Definition methods : list jwt.SigningMethod :=
  [jwt.HS256; jwt.HS384; jwt.HS512; jwt.RS256; jwt.RS384; jwt.RS512;
   jwt.PS256; jwt.PS384; jwt.PS512; jwt.ES256; jwt.ES384; jwt.ES512;
   jwt.none].

Definition GetSigningMethod (name : string) : option jwt.SigningMethod :=
  find (fun m => String.eqb (alg m) name) methods.

Definition blockSize (m : jwt.SigningMethod) : nat :=
  match m with
  | jwt.HS256 => 64
  | _ => 128
  end.

Fixpoint zeros (n : nat) : string :=
  match n with
  | O => ""
  | S k => String Ascii.zero (zeros k)
  end.

(** The key block of HMAC: the key, padded with zero bytes to the block
    size. *)
Definition keyBlock (m : jwt.SigningMethod) (key : string) : string :=
  key ++ zeros (blockSize m - String.length key).

Definition mac (m : jwt.SigningMethod) (key s : string) : string :=
  keyBlock m key ++ s.

Definition signingString (m : jwt.SigningMethod) (claims : string) : string :=
  frame (alg m) ++ frame claims.

Definition Verify (m : jwt.SigningMethod) (s sig key : string) : bool :=
  jwt.isSigningMethodHMAC m && String.eqb sig (mac m key s).

Definition SignedString (m : jwt.SigningMethod) (p : option Payload)
           (key : string) : string * option error :=
  if jwt.isSigningMethodHMAC m then
    let claims := match p with Some p => marshal p | None => "null" end in
    let s := signingString m claims in
    (s ++ frame (mac m key s), None)
  else ("", Some (External "key is of invalid type")).

Definition ParseUnverified (t : string) (claims : jwt.Claims)
  : option jwt.Token :=
  match unframe t with
  | Some (name, t1) =>
    match GetSigningMethod name, unframe t1 with
    | Some m, Some (body, t2) =>
      match unframe t2 with
      | Some (sig, "") =>
          match claims with
          | jwt.PayloadClaims _ =>
              match unmarshal body with
              | Some p =>
                  Some (jwt.mkToken m (jwt.PayloadClaims p)
                                    (signingString m body) sig)
              | None => None
              end
          | jwt.LibraryClaims _ =>
              Some (jwt.mkToken m (jwt.LibraryClaims None)
                                (signingString m body) sig)
          end
      | _ => None
      end
    | _, _ => None
    end
  | None => None
  end.

Definition jwtgo : jwt.Lib :=
  {| jwt.ParseUnverified := ParseUnverified;
     jwt.Verify := Verify;
     jwt.SignedString := SignedString;
     jwt.encodable := fun _ => true |}.

Definition Encrypt (key : string) (p : option Payload) (rnd : string)
  : string * option error :=
  if len key =? chacha20poly1305.KeySize then
    match p with
    | Some p => (frame key ++ frame rnd ++ frame (marshal p), None)
    | None => (frame key ++ frame rnd ++ frame "null", None)
    end
  else ("", Some (External "chacha20poly1305: bad key length")).

Definition Decrypt (t key : string) (p0 : Payload) : Payload * option error :=
  if len key =? chacha20poly1305.KeySize then
    match unframe t with
    | Some (k, t1) =>
      match unframe t1 with
      | Some (_, t2) =>
        match unframe t2 with
        | Some (body, "") =>
            if String.eqb k key then
              match unmarshal body with
              | Some p => (p, None)
              | None => (p0, Some (External "invalid token format"))
              end
            else (p0, Some (External "invalid token authentication"))
        | _ => (p0, Some (External "invalid token format"))
        end
      | None => (p0, Some (External "invalid token format"))
      end
    | None => (p0, Some (External "invalid token format"))
    end
  else (p0, Some (External "chacha20poly1305: bad key length")).

Definition v2 : paseto.V2 :=
  {| paseto.Encrypt := Encrypt;
     paseto.Decrypt := Decrypt;
     paseto.encodable := fun _ => true |}.

End Sym.

(** ** Notions used to state the properties *)

(** The caller's choice between the two implementations, and the
    construction of a [Maker] for it. *)
Inductive Scheme : Type := Signed | Encrypted.

Definition NewMaker (V : paseto.V2) (scheme : Scheme) (key : string)
  : option Maker * option error :=
  match scheme with
  | Signed =>
      let '(maker, err) := JWT.NewJWTMaker key in
      (option_map MakerJWT maker, err)
  | Encrypted => PASETO.NewPasetoMaker V key
  end.

(** A key the scheme can work with: the HMAC of the signed scheme takes any
    key from the minimum size on, the cipher of the encrypted scheme takes
    keys of its key size only. *)
Definition key_fits (scheme : Scheme) (key : string) : Prop :=
  match scheme with
  | Signed => minSecretKeySize <= len key
  | Encrypted => len key = chacha20poly1305.KeySize
  end.

(** The payload can travel in a token of the maker. *)
Definition wire_ok (L : jwt.Lib) (maker : Maker) (p : Payload) : bool :=
  match maker with
  | MakerJWT _ => jwt.encodable L p
  | MakerPaseto m => paseto.encodable (paseto_ m) p
  end.

(** The structural and cryptographic checks of a maker on a token, without
    the clock: the payload of a token that decodes, is of the package's
    claims type and, for the signed scheme, passes the key function and the
    signature check under the maker's key; for the encrypted scheme,
    decrypts under the maker's key. *)
Definition authenticated (L : jwt.Lib) (maker : Maker) (token : string)
  : option Payload :=
  match maker with
  | MakerJWT m =>
      match jwt.ParseUnverified L token (jwt.PayloadClaims zeroPayload) with
      | Some tok =>
          if jwt.isSigningMethodHMAC (jwt.Method tok)
             && jwt.Verify L (jwt.Method tok) (jwt.SigningString tok)
                           (jwt.Signature tok) (secretKey m)
          then match jwt.TokenClaims tok with
               | jwt.PayloadClaims p => Some p
               | jwt.LibraryClaims _ => None
               end
          else None
      | None => None
      end
  | MakerPaseto m =>
      match paseto.Decrypt (paseto_ m) token (symmetricKey m) zeroPayload with
      | (p, None) => Some p
      | (_, Some _) => None
      end
  end.

(** The key a maker holds. *)
Definition key_of (maker : Maker) : string :=
  match maker with
  | MakerJWT m => secretKey m
  | MakerPaseto m => symmetricKey m
  end.

(** The libraries behind a maker meet their contracts. *)
Definition libraries_ok (L : jwt.Lib) (maker : Maker) : Prop :=
  match maker with
  | MakerJWT _ => JwtContract L
  | MakerPaseto m => PasetoContract (paseto_ m)
  end.

Definition same_scheme (a b : Maker) : bool :=
  match a, b with
  | MakerJWT _, MakerJWT _ => true
  | MakerPaseto _, MakerPaseto _ => true
  | _, _ => false
  end.

(** *** Four statements of the specification, word for word

    Each is compared with the code in the section on corrected statements. *)

(** Creation followed at once by verification succeeds for every maker that
    a constructor returned. *)
Definition roundtrip_as_stated : Prop :=
  forall (L : jwt.Lib) (V : paseto.V2) scheme key maker w username role
         duration p,
    JwtContract L -> PasetoContract V ->
    NewMaker V scheme key = (Some maker, None) ->
    0 < duration ->
    NewPayload w username role duration = (Some p, None) ->
    wire_ok L maker p = true ->
    exists token p',
      Maker_CreateToken L maker w username role duration
      = (token, Some p, None) /\
      Maker_VerifyToken L maker (Now w) token = (Some p', None) /\
      Username p' = username /\ Role p' = role /\
      ExpiredAt p' = IssuedAt p' + duration.

(** A token of zero or negative duration is expired when verified at
    once. *)
Definition expired_at_once_as_stated : Prop :=
  forall (L : jwt.Lib) maker w username role duration token p,
    libraries_ok L maker ->
    duration <= 0 ->
    Maker_CreateToken L maker w username role duration
    = (token, Some p, None) ->
    wire_ok L maker p = true ->
    Maker_VerifyToken L maker (Now w) token = (None, Some ErrExpiredToken).

(** A token whose header names another algorithm than HS256 is rejected. *)
Definition other_algorithm_rejected_as_stated : Prop :=
  forall (L : jwt.Lib) m now token tok,
    JwtContract L ->
    jwt.ParseUnverified L token (jwt.PayloadClaims zeroPayload) = Some tok ->
    jwt.Method tok <> jwt.HS256 ->
    JWT.VerifyToken L m now token = (None, Some ErrInvalidToken).

(** A token created under one key is rejected under any other key. *)
Definition other_key_rejected_as_stated : Prop :=
  forall (L : jwt.Lib) maker maker' w username role duration token p now,
    libraries_ok L maker -> libraries_ok L maker' ->
    same_scheme maker maker' = true ->
    key_of maker <> key_of maker' ->
    Maker_CreateToken L maker w username role duration
    = (token, Some p, None) ->
    wire_ok L maker p = true ->
    Maker_VerifyToken L maker' now token = (None, Some ErrInvalidToken).

(** Concrete inputs. *)
Definition key32 : string := "0123456789abcdef0123456789abcdef".
Definition key32' : string := "fedcba9876543210fedcba9876543210".
Definition key33 : string := "0123456789abcdef0123456789abcdef!".
Definition key32_NUL : string := key32 ++ NUL.
Definition world0 : World := mkWorld 1000 ("7f3c", None) "nonce".
Definition world_norand : World :=
  mkWorld 1000 ("", Some (External "crypto/rand: read failed")) "".
Definition payload0 : Payload := mkPayload "7f3c" "alice" "admin" 1000 1060.
Definition jwt32 : Maker := MakerJWT (mkJWTMaker key32).
Definition jwt32' : Maker := MakerJWT (mkJWTMaker key32').
Definition jwt32_NUL : Maker := MakerJWT (mkJWTMaker key32_NUL).
Definition paseto32 : Maker := MakerPaseto (mkPasetoMaker Sym.v2 key32).
Definition paseto33 : Maker := MakerPaseto (mkPasetoMaker Sym.v2 key33).

(** The token string of a result of [CreateToken]. *)
Definition token_of (r : string * option Payload * option error) : string :=
  fst (fst r).

(** A token whose header names RS256, with an arbitrary third segment. *)
Definition token_RS256 : string :=
  Sym.signingString jwt.RS256 (Sym.marshal payload0) ++ Sym.frame "sig".

(** *** Keys of the two primitives, and the primitives taken as ideal *)

(** The key that HMAC computes with (crypto/hmac): a key longer than the
    block of the hash is replaced by its hash, and the key is then padded
    with zero bytes to the block.  The hash is a parameter. *)
Definition hmac_key_block (hash : jwt.SigningMethod -> string -> string)
           (m : jwt.SigningMethod) (key : string) : string :=
  let k := if (Sym.blockSize m <? String.length key)%nat
           then hash m key else key in
  k ++ Sym.zeros (Sym.blockSize m - String.length k).

(** The hash of the symbolic library: the key itself. *)
Definition sym_hash (m : jwt.SigningMethod) (key : string) : string := key.

(** jwt-go over an ideal MAC.  [verify_key_block]: a signature check reads
    the key through its HMAC key block only.  [mac_unforgeable]: the
    signature of a signed token checks under no key with another key block
    than the signing key's. *)
Record JwtIdealMac (L : jwt.Lib)
       (hash : jwt.SigningMethod -> string -> string) : Prop := {
  verify_key_block :
    forall m s sig k k',
      jwt.isSigningMethodHMAC m = true ->
      hmac_key_block hash m k = hmac_key_block hash m k' ->
      jwt.Verify L m s sig k = jwt.Verify L m s sig k';
  mac_unforgeable :
    forall m p k k' t tok p0,
      jwt.isSigningMethodHMAC m = true ->
      jwt.SignedString L m (Some p) k = (t, None) ->
      jwt.ParseUnverified L t (jwt.PayloadClaims p0) = Some tok ->
      jwt.Verify L (jwt.Method tok) (jwt.SigningString tok)
                 (jwt.Signature tok) k' = true ->
      hmac_key_block hash m k = hmac_key_block hash m k'
}.

(** paseto over an ideal authenticated cipher: what [Encrypt] returned under
    one key decrypts under no other key. *)
Record PasetoIdealAead (V : paseto.V2) : Prop := {
  aead_other_key :
    forall k k' p rnd t p0,
      paseto.Encrypt V k p rnd = (t, None) ->
      k <> k' ->
      snd (paseto.Decrypt V t k' p0) <> None
}.

(** Two keys are different keys for the primitive of the scheme: for the
    signed scheme their HMAC key blocks (under HS256, the method the maker
    signs with) differ; for the encrypted scheme the keys differ. *)
Definition keys_distinct (hash : jwt.SigningMethod -> string -> string)
           (scheme : Scheme) (key key' : string) : Prop :=
  match scheme with
  | Signed =>
      hmac_key_block hash jwt.HS256 key <> hmac_key_block hash jwt.HS256 key'
  | Encrypted => key <> key'
  end.

(** * Properties *)

(** ** The symbolic libraries meet the contracts *)

Lemma append_assoc (a b c : string) : (a ++ b) ++ c = a ++ (b ++ c).
Proof.
  induction a as [|x a IH]; simpl; [reflexivity | now rewrite IH].
Qed.

Lemma append_nil_r (a : string) : a ++ "" = a.
Proof.
  induction a as [|x a IH]; simpl; [reflexivity | now rewrite IH].
Qed.

Lemma length_append (a b : string) :
  String.length (a ++ b) = (String.length a + String.length b)%nat.
Proof.
  induction a as [|x a IH]; simpl; [reflexivity | now rewrite IH].
Qed.

Lemma unframe_frame (s rest : string) :
  Sym.unframe (Sym.frame s ++ rest) = Some (s, rest).
Proof.
  induction s as [|c s IH]; simpl.
  - reflexivity.
  - now rewrite IH.
Qed.

Lemma unframe_frame_end (s : string) :
  Sym.unframe (Sym.frame s) = Some (s, "").
Proof.
  rewrite <- (append_nil_r (Sym.frame s)). apply unframe_frame.
Qed.

Lemma Z_of_string_of_Z (z : Z) : Sym.Z_of_string (Sym.string_of_Z z) = Some z.
Proof.
  unfold Sym.Z_of_string, Sym.string_of_Z.
  rewrite NilEmpty.isi. simpl. now rewrite DecimalZ.of_to.
Qed.

Lemma unmarshal_marshal (p : Payload) : Sym.unmarshal (Sym.marshal p) = Some p.
Proof.
  destruct p as [id username role iat exp].
  unfold Sym.unmarshal, Sym.marshal; simpl.
  rewrite !unframe_frame, unframe_frame_end, !Z_of_string_of_Z.
  reflexivity.
Qed.

Lemma GetSigningMethod_alg (m : jwt.SigningMethod) :
  Sym.GetSigningMethod (Sym.alg m) = Some m.
Proof. destruct m; reflexivity. Qed.

Lemma zeros_succ (n : nat) : Sym.zeros (S n) = NUL ++ Sym.zeros n.
Proof. reflexivity. Qed.

Lemma blockSize_min (m : jwt.SigningMethod) : (64 <= Sym.blockSize m)%nat.
Proof. destruct m; simpl; lia. Qed.

Lemma keyBlock_padding (m : jwt.SigningMethod) (key : string) :
  len key < 64 -> Sym.keyBlock m (key ++ NUL) = Sym.keyBlock m key.
Proof.
  unfold len, Sym.keyBlock; intros Hlen.
  pose proof (blockSize_min m) as Hb.
  rewrite length_append, append_assoc; simpl String.length.
  replace (Sym.blockSize m - String.length key)%nat
    with (S (Sym.blockSize m - (String.length key + 1)))%nat by lia.
  now rewrite zeros_succ.
Qed.

Lemma Sym_jwtgo_contract : JwtContract Sym.jwtgo.
Proof.
  split.
  - intros m p key p0 Hm _.
    exists (Sym.signingString m (Sym.marshal p)
            ++ Sym.frame (Sym.mac m key (Sym.signingString m (Sym.marshal p)))).
    exists (jwt.mkToken m (jwt.PayloadClaims p)
                        (Sym.signingString m (Sym.marshal p))
                        (Sym.mac m key (Sym.signingString m (Sym.marshal p)))).
    simpl. unfold Sym.SignedString, Sym.ParseUnverified, Sym.Verify.
    rewrite Hm. split; [reflexivity|].
    unfold Sym.signingString at 1.
    rewrite !append_assoc, unframe_frame, GetSigningMethod_alg,
      unframe_frame, unframe_frame_end, unmarshal_marshal.
    repeat split. simpl. apply String.eqb_refl.
  - intros m s sig key Hm Hlen. simpl. unfold Sym.Verify, Sym.mac.
    now rewrite keyBlock_padding.
Qed.

Lemma Sym_v2_contract : PasetoContract Sym.v2.
Proof.
  split.
  - intros key p rnd p0 Hlen _.
    exists (Sym.frame key ++ Sym.frame rnd ++ Sym.frame (Sym.marshal p)).
    simpl. unfold Sym.Encrypt, Sym.Decrypt.
    rewrite Hlen, Z.eqb_refl. split; [reflexivity|].
    now rewrite !unframe_frame, unframe_frame_end, String.eqb_refl,
      unmarshal_marshal.
  - intros key p rnd Hlen. simpl. unfold Sym.Encrypt.
    apply Z.eqb_neq in Hlen. rewrite Hlen. eauto.
Qed.

(** ** How [VerifyToken] classifies a token *)

Lemma lor_SignatureInvalid (flags : N) :
  (N.lor flags jwt.ValidationErrorSignatureInvalid =? 0)%N = false.
Proof.
  apply N.eqb_neq. intros H. apply N.lor_eq_0_iff in H.
  destruct H as [_ H]. discriminate H.
Qed.

Lemma JWT_VerifyToken_classify (L : jwt.Lib) (m : JWTMaker) (now : Z)
      (token : string) :
  JWT.VerifyToken L m now token =
  match authenticated L (MakerJWT m) token with
  | None => (None, Some ErrInvalidToken)
  | Some p => if now >? ExpiredAt p then (None, Some ErrExpiredToken)
              else (Some p, None)
  end.
Proof.
  unfold JWT.VerifyToken, jwt.ParseWithClaims, authenticated, JWT.keyFunc.
  destruct (jwt.ParseUnverified L token _) as [tok|]; [|reflexivity].
  destruct (jwt.isSigningMethodHMAC (jwt.Method tok)); simpl; [|reflexivity].
  destruct (jwt.Verify L _ _ _ _); simpl.
  - destruct (jwt.TokenClaims tok) as [p|[[msg flags]|]] eqn:Hclaims; simpl.
    + unfold Valid. destruct (now >? ExpiredAt p); simpl.
      * reflexivity.
      * now rewrite Hclaims.
    + destruct (flags =? 0)%N; simpl; [|reflexivity].
      now rewrite Hclaims.
    + now rewrite Hclaims.
  - rewrite lor_SignatureInvalid. reflexivity.
Qed.

Lemma PASETO_VerifyToken_classify (L : jwt.Lib) (m : PasetoMaker) (now : Z)
      (token : string) :
  PASETO.VerifyToken m now token =
  match authenticated L (MakerPaseto m) token with
  | None => (None, Some ErrInvalidToken)
  | Some p => if now >? ExpiredAt p then (None, Some ErrExpiredToken)
              else (Some p, None)
  end.
Proof.
  unfold PASETO.VerifyToken, authenticated, Valid.
  destruct (paseto.Decrypt _ _ _ _) as [p [err|]]; [reflexivity|].
  destruct (now >? ExpiredAt p); reflexivity.
Qed.

Lemma VerifyToken_classify (L : jwt.Lib) (maker : Maker) (now : Z)
      (token : string) :
  Maker_VerifyToken L maker now token =
  match authenticated L maker token with
  | None => (None, Some ErrInvalidToken)
  | Some p => if now >? ExpiredAt p then (None, Some ErrExpiredToken)
              else (Some p, None)
  end.
Proof.
  destruct maker as [m|m].
  - apply JWT_VerifyToken_classify.
  - apply PASETO_VerifyToken_classify.
Qed.

(** ** Verification: error kinds and result shape *)

(** C2.  On either maker, [VerifyToken] fails with [ErrInvalidToken] on every
    token that does not pass the structural, cryptographic and claims-type
    checks, and it fails with [ErrExpiredToken] exactly when the token
    passes them and the current time is past the payload's [ExpiredAt]. *)
Theorem C2_verify_error_kinds (L : jwt.Lib) (maker : Maker) (now : Z)
        (token : string) :
  (authenticated L maker token = None ->
   Maker_VerifyToken L maker now token = (None, Some ErrInvalidToken)) /\
  (Maker_VerifyToken L maker now token = (None, Some ErrExpiredToken) <->
   exists p, authenticated L maker token = Some p /\ ExpiredAt p < now).
Proof.
  rewrite VerifyToken_classify.
  destruct (authenticated L maker token) as [p|].
  - split; [discriminate|].
    destruct (now >? ExpiredAt p) eqn:Hnow; split.
    + intros _. exists p. split; [reflexivity | lia].
    + reflexivity.
    + discriminate.
    + intros (q & Hq & Hlt). injection Hq as ->. lia.
  - split; [reflexivity|]. split; [discriminate|].
    intros (q & Hq & _). discriminate.
Qed.

(** C9.  On either maker and for every token string, [VerifyToken] returns
    either a payload with a nil error or a nil payload with an error: never
    both, never neither. *)
Theorem C9_payload_xor_error (L : jwt.Lib) (maker : Maker) (now : Z)
        (token : string) :
  (exists p, Maker_VerifyToken L maker now token = (Some p, None)) \/
  (exists err, Maker_VerifyToken L maker now token = (None, Some err)).
Proof.
  rewrite VerifyToken_classify.
  destruct (authenticated L maker token) as [p|]; [|right; eauto].
  destruct (now >? ExpiredAt p); [right | left]; eauto.
Qed.

(** C8.  [Payload.Valid] succeeds if and only if the current time is at or
    before [ExpiredAt]; it reads the stored expiry only, so payloads with
    the same expiry are valid together; and the encrypted maker's
    [VerifyToken] returns a decrypted payload exactly under that
    condition. *)
Theorem C8_valid_iff_not_past_expiry (now : Z) (payload : Payload) :
  (Valid now payload = None <-> now <= ExpiredAt payload) /\
  (forall q, ExpiredAt q = ExpiredAt payload ->
             Valid now q = Valid now payload) /\
  (forall maker token,
      paseto.Decrypt (paseto_ maker) token (symmetricKey maker) zeroPayload
      = (payload, None) ->
      (PASETO.VerifyToken maker now token = (Some payload, None) <->
       now <= ExpiredAt payload)).
Proof.
  assert (Hvalid : Valid now payload = None <-> now <= ExpiredAt payload).
  { unfold Valid. destruct (now >? ExpiredAt payload) eqn:Hnow; split;
      first [discriminate | lia | reflexivity]. }
  split; [exact Hvalid|]. split.
  - intros q Hq. unfold Valid. now rewrite Hq.
  - intros maker token Hdec. unfold PASETO.VerifyToken. rewrite Hdec.
    rewrite <- Hvalid.
    destruct (Valid now payload); split;
      first [discriminate | reflexivity].
Qed.

(** ** Construction *)

(** C3.  A key shorter than 32 bytes makes both constructors return an error
    and no maker; a key of at least 32 bytes makes both succeed. *)
Theorem C3_constructors_check_key_size (V : paseto.V2) (key : string) :
  (len key < 32 ->
   JWT.NewJWTMaker key
   = (None, Some (Errorf "invalid key size: must be at least 32 characters"))
   /\
   PASETO.NewPasetoMaker V key
   = (None, Some (Errorf "invalid key size: must be at least 32 characters")))
  /\
  (32 <= len key ->
   JWT.NewJWTMaker key = (Some (mkJWTMaker key), None) /\
   PASETO.NewPasetoMaker V key
   = (Some (MakerPaseto (mkPasetoMaker V key)), None)).
Proof.
  unfold JWT.NewJWTMaker, PASETO.NewPasetoMaker, minSecretKeySize,
    chacha20poly1305.KeySize.
  split; intros Hlen.
  - apply Z.ltb_lt in Hlen. now rewrite Hlen.
  - apply Z.ltb_ge in Hlen. now rewrite Hlen.
Qed.

(** C10.  [NewPasetoMaker] succeeds on every key longer than the cipher's
    key size: the check is a lower bound only. *)
Theorem C10_paseto_accepts_longer_keys (V : paseto.V2) (key : string) :
  chacha20poly1305.KeySize < len key ->
  PASETO.NewPasetoMaker V key
  = (Some (MakerPaseto (mkPasetoMaker V key)), None).
Proof.
  intros Hlen. unfold PASETO.NewPasetoMaker.
  assert (H : (len key <? chacha20poly1305.KeySize) = false)
    by (apply Z.ltb_ge; lia).
  now rewrite H.
Qed.

Lemma C10_witness :
  chacha20poly1305.KeySize < len key33 /\
  PASETO.NewPasetoMaker Sym.v2 key33
  = (Some (MakerPaseto (mkPasetoMaker Sym.v2 key33)), None).
Proof.
  split.
  - reflexivity.
  - apply (C10_paseto_accepts_longer_keys Sym.v2 key33). reflexivity.
Defined.

(** ** Creation *)

(** C6.  When the construction of the payload fails, [CreateToken] of either
    maker returns that very error together with the empty token string. *)
Theorem C6_construction_error_propagated
        (L : jwt.Lib) (maker : Maker) (w : World) (username role : string)
        (duration : Z) (p0 : option Payload) (err : error) :
  NewPayload w username role duration = (p0, Some err) ->
  exists p,
    Maker_CreateToken L maker w username role duration = ("", p, Some err).
Proof.
  intros Hnew.
  destruct maker as [m|m]; simpl;
    unfold JWT.CreateToken, PASETO.CreateToken; rewrite Hnew; eauto.
Qed.

Lemma C6_witness :
  exists p,
    Maker_CreateToken Sym.jwtgo (MakerPaseto (mkPasetoMaker Sym.v2 key32))
                      world_norand "alice" "admin" 60
    = ("", p, Some (External "crypto/rand: read failed")).
Proof.
  apply (C6_construction_error_propagated
           Sym.jwtgo (MakerPaseto (mkPasetoMaker Sym.v2 key32))
           world_norand "alice" "admin" 60 None).
  reflexivity.
Defined.

(** ** Tokens that a maker created *)

Lemma NewPayload_fields (w : World) (username role : string) (duration : Z)
      (p : Payload) :
  NewPayload w username role duration = (Some p, None) ->
  Username p = username /\ Role p = role /\
  IssuedAt p = Now w /\ ExpiredAt p = Now w + duration.
Proof.
  unfold NewPayload. destruct (NewRandom w) as [id [err|]]; [discriminate|].
  intros H. injection H as <-. simpl. auto.
Qed.

Lemma CreateToken_inv (L : jwt.Lib) (maker : Maker) (w : World)
      (username role : string) (duration : Z) (token : string) (p : Payload) :
  Maker_CreateToken L maker w username role duration = (token, Some p, None) ->
  NewPayload w username role duration = (Some p, None) /\
  match maker with
  | MakerJWT m =>
      jwt.SignedString L jwt.SigningMethodHS256 (Some p) (secretKey m)
      = (token, None)
  | MakerPaseto m =>
      paseto.Encrypt (paseto_ m) (symmetricKey m) (Some p) (RandBytes w)
      = (token, None)
  end.
Proof.
  destruct maker as [m|m]; simpl;
    unfold JWT.CreateToken, PASETO.CreateToken;
    destruct (NewPayload w username role duration) as [q [err|]];
    try discriminate.
  - destruct (jwt.SignedString L _ q _) as [t e] eqn:Hs.
    intros H. injection H as -> -> ->. split; [reflexivity | exact Hs].
  - destruct (paseto.Encrypt _ _ q _) as [t e] eqn:Hs.
    intros H. injection H as -> -> ->. split; [reflexivity | exact Hs].
Qed.

Lemma signed_authenticated (L : jwt.Lib) (m : JWTMaker)
      (meth : jwt.SigningMethod) (p : Payload) :
  JwtContract L ->
  jwt.isSigningMethodHMAC meth = true ->
  jwt.encodable L p = true ->
  exists t tok,
    jwt.SignedString L meth (Some p) (secretKey m) = (t, None) /\
    jwt.ParseUnverified L t (jwt.PayloadClaims zeroPayload) = Some tok /\
    jwt.Method tok = meth /\
    authenticated L (MakerJWT m) t = Some p.
Proof.
  intros HL Hm Hp.
  destruct (sign_parse L HL meth p (secretKey m) zeroPayload Hm Hp)
    as (t & tok & Hs & Hparse & Hmeth & Hclaims & Hver).
  exists t, tok. repeat split; try assumption.
  unfold authenticated. now rewrite Hparse, Hmeth, Hm, Hver, Hclaims.
Qed.

Lemma encrypted_authenticated (L : jwt.Lib) (m : PasetoMaker) (p : Payload)
      (rnd : string) :
  PasetoContract (paseto_ m) ->
  len (symmetricKey m) = chacha20poly1305.KeySize ->
  paseto.encodable (paseto_ m) p = true ->
  exists t,
    paseto.Encrypt (paseto_ m) (symmetricKey m) (Some p) rnd = (t, None) /\
    authenticated L (MakerPaseto m) t = Some p.
Proof.
  intros HV Hlen Hp.
  destruct (encrypt_decrypt _ HV (symmetricKey m) p rnd zeroPayload Hlen Hp)
    as (t & Henc & Hdec).
  exists t. split; [assumption|].
  unfold authenticated. now rewrite Hdec.
Qed.

(** A token that [CreateToken] returned passes the checks of the maker that
    created it, with the payload that was returned with it. *)
Lemma created_authenticated (L : jwt.Lib) (maker : Maker) (w : World)
      (username role : string) (duration : Z) (token : string) (p : Payload) :
  libraries_ok L maker ->
  Maker_CreateToken L maker w username role duration = (token, Some p, None) ->
  wire_ok L maker p = true ->
  authenticated L maker token = Some p.
Proof.
  intros Hlib Hcreate Hwire.
  apply CreateToken_inv in Hcreate. destruct Hcreate as [_ Hcreate].
  destruct maker as [m|m]; simpl in *.
  - destruct (signed_authenticated L m jwt.SigningMethodHS256 p Hlib
                eq_refl Hwire) as (t & tok & Hs & _ & _ & Hauth).
    rewrite Hs in Hcreate. now injection Hcreate as <-.
  - destruct (Z.eq_dec (len (symmetricKey m)) chacha20poly1305.KeySize)
      as [Hlen|Hlen].
    + destruct (encrypted_authenticated L m p (RandBytes w) Hlib Hlen Hwire)
        as (t & Henc & Hauth).
      rewrite Henc in Hcreate. now injection Hcreate as <-.
    + destruct (encrypt_key_size _ Hlib (symmetricKey m) (Some p)
                  (RandBytes w) Hlen) as [err Henc].
      rewrite Henc in Hcreate. discriminate.
Qed.

(** The encrypted maker cannot create a token under a key of another length
    than the cipher's key size. *)
Lemma PASETO_CreateToken_key_size (m : PasetoMaker) (w : World)
      (username role : string) (duration : Z) :
  PasetoContract (paseto_ m) ->
  len (symmetricKey m) <> chacha20poly1305.KeySize ->
  exists p err,
    PASETO.CreateToken m w username role duration = ("", p, Some err).
Proof.
  intros HV Hlen. unfold PASETO.CreateToken.
  destruct (NewPayload w username role duration) as [q [err|]]; [eauto|].
  destruct (encrypt_key_size _ HV (symmetricKey m) q (RandBytes w) Hlen)
    as [err Henc].
  rewrite Henc. eauto.
Qed.

(** The signed maker gives one verdict under a key and under the same key
    followed by a zero byte. *)
Lemma JWT_padded_key_same_verdict (L : jwt.Lib) (key : string) (now : Z)
      (token : string) :
  JwtContract L ->
  len key < 64 ->
  JWT.VerifyToken L (mkJWTMaker (key ++ NUL)) now token
  = JWT.VerifyToken L (mkJWTMaker key) now token.
Proof.
  intros HL Hlen. rewrite !JWT_VerifyToken_classify. unfold authenticated.
  destruct (jwt.ParseUnverified L token _) as [tok|]; [|reflexivity].
  destruct (jwt.isSigningMethodHMAC (jwt.Method tok)) eqn:Hm; [|reflexivity].
  simpl. now rewrite (hmac_key_padding L HL _ _ _ _ Hm Hlen).
Qed.

(** ** Statements that the code does not meet as worded, and what holds *)

(** C1 (as amended).  For every username, role, positive duration and maker
    constructed with a key that its scheme can use (at least 32 bytes for
    the signed scheme, exactly 32 bytes for the encrypted one), whenever the
    payload is constructed and can travel in a token, [CreateToken]
    succeeds, and [VerifyToken] on its token at any clock reading up to
    [issuedAt + duration] (the instant of creation among them) returns that
    payload, with the username and role given and with
    [expiredAt = issuedAt + duration]. *)
Theorem C1_create_then_verify
        (L : jwt.Lib) (V : paseto.V2) (scheme : Scheme) (key : string)
        (maker : Maker) (w : World) (username role : string) (duration : Z)
        (p : Payload) (now' : Z) :
  JwtContract L -> PasetoContract V ->
  NewMaker V scheme key = (Some maker, None) ->
  key_fits scheme key ->
  0 < duration ->
  NewPayload w username role duration = (Some p, None) ->
  wire_ok L maker p = true ->
  now' <= Now w + duration ->
  exists token,
    Maker_CreateToken L maker w username role duration
    = (token, Some p, None) /\
    Maker_VerifyToken L maker now' token = (Some p, None) /\
    Username p = username /\ Role p = role /\
    ExpiredAt p = IssuedAt p + duration.
Proof.
  intros HL HV Hnew Hfits Hpos Hp Hwire Hnow.
  destruct (NewPayload_fields _ _ _ _ _ Hp) as (Hu & Hr & Hiat & Hexp).
  assert (Hfresh : (now' >? ExpiredAt p) = false)
    by (rewrite Hexp, Z.gtb_ltb; apply Z.ltb_ge; lia).
  assert (Hcreated : exists token,
             Maker_CreateToken L maker w username role duration
             = (token, Some p, None) /\
             authenticated L maker token = Some p).
  { destruct scheme; simpl in Hnew, Hfits.
    - unfold JWT.NewJWTMaker in Hnew.
      destruct (len key <? minSecretKeySize); [discriminate|].
      injection Hnew as <-. simpl in Hwire.
      destruct (signed_authenticated L (mkJWTMaker key)
                  jwt.SigningMethodHS256 p HL eq_refl Hwire)
        as (t & tok & Hs & _ & _ & Hauth).
      exists t. split; [|exact Hauth].
      simpl. unfold JWT.CreateToken. now rewrite Hp, Hs.
    - unfold PASETO.NewPasetoMaker in Hnew.
      destruct (len key <? chacha20poly1305.KeySize); [discriminate|].
      injection Hnew as <-. simpl in Hwire.
      destruct (encrypted_authenticated L (mkPasetoMaker V key) p
                  (RandBytes w) HV Hfits Hwire) as (t & Henc & Hauth).
      exists t. split; [|exact Hauth].
      simpl. unfold PASETO.CreateToken. rewrite Hp.
      cbn [paseto_ symmetricKey] in Henc |- *. now rewrite Henc. }
  destruct Hcreated as (token & Hcreate & Hauth).
  exists token. split; [exact Hcreate|]. split.
  - now rewrite VerifyToken_classify, Hauth, Hfresh.
  - rewrite Hiat. auto.
Qed.

Lemma C1_witness :
  exists token,
    Maker_CreateToken Sym.jwtgo paseto32 world0 "alice" "admin" 60
    = (token, Some payload0, None) /\
    Maker_VerifyToken Sym.jwtgo paseto32 1000 token = (Some payload0, None) /\
    Username payload0 = "alice" /\ Role payload0 = "admin" /\
    ExpiredAt payload0 = IssuedAt payload0 + 60.
Proof.
  apply (C1_create_then_verify Sym.jwtgo Sym.v2 Encrypted key32 paseto32
           world0 "alice" "admin" 60 payload0 1000
           Sym_jwtgo_contract Sym_v2_contract).
  - reflexivity.
  - reflexivity.
  - reflexivity.
  - reflexivity.
  - reflexivity.
  - vm_compute. discriminate.
Defined.

(** C1 as worded fails on the encrypted maker with a key of 33 bytes:
    [NewPasetoMaker] returns a maker, and [CreateToken] of that maker
    returns the cipher's error and an empty token. *)
Lemma C1_counterexample :
  NewMaker Sym.v2 Encrypted key33 = (Some paseto33, None) /\
  Maker_CreateToken Sym.jwtgo paseto33 world0 "alice" "admin" 60
  = ("", Some payload0, Some (External "chacha20poly1305: bad key length")) /\
  ~ roundtrip_as_stated.
Proof.
  split; [reflexivity|]. split; [reflexivity|].
  intros H.
  destruct (H Sym.jwtgo Sym.v2 Encrypted key33 paseto33 world0
              "alice" "admin" 60 payload0
              Sym_jwtgo_contract Sym_v2_contract
              eq_refl eq_refl eq_refl eq_refl)
    as (token & p' & Hcreate & _).
  vm_compute in Hcreate. discriminate Hcreate.
Qed.

(** C4 (as amended).  A token created with a negative duration is reported
    expired by [VerifyToken] at the instant of creation and at every later
    one; a token created with duration zero is reported expired at every
    clock reading strictly after the instant of creation. *)
Theorem C4_nonpositive_duration_expired
        (L : jwt.Lib) (maker : Maker) (w : World) (username role : string)
        (duration : Z) (token : string) (p : Payload) (now' : Z) :
  libraries_ok L maker ->
  Maker_CreateToken L maker w username role duration
  = (token, Some p, None) ->
  wire_ok L maker p = true ->
  duration <= 0 ->
  Now w <= now' ->
  duration < 0 \/ Now w < now' ->
  Maker_VerifyToken L maker now' token = (None, Some ErrExpiredToken).
Proof.
  intros Hlib Hcreate Hwire Hd Hnow Hstrict.
  rewrite VerifyToken_classify,
    (created_authenticated _ _ _ _ _ _ _ _ Hlib Hcreate Hwire).
  apply CreateToken_inv in Hcreate. destruct Hcreate as [Hp _].
  destruct (NewPayload_fields _ _ _ _ _ Hp) as (_ & _ & _ & Hexp).
  assert (Hpast : (now' >? ExpiredAt p) = true)
    by (rewrite Hexp, Z.gtb_ltb; apply Z.ltb_lt; lia).
  now rewrite Hpast.
Qed.

Lemma C4_witness :
  Maker_VerifyToken Sym.jwtgo jwt32 1001
    (token_of (Maker_CreateToken Sym.jwtgo jwt32 world0 "alice" "admin" 0))
  = (None, Some ErrExpiredToken).
Proof.
  apply (C4_nonpositive_duration_expired Sym.jwtgo jwt32 world0
           "alice" "admin" 0 _ (mkPayload "7f3c" "alice" "admin" 1000 1000)
           1001 Sym_jwtgo_contract).
  - reflexivity.
  - reflexivity.
  - vm_compute. discriminate.
  - vm_compute. discriminate.
  - right. reflexivity.
Defined.

(** C4 as worded fails for duration zero when the clock reads the instant of
    creation again: the expiry is not past, and both makers return the
    payload. *)
Lemma C4_counterexample :
  (exists token p,
      Maker_CreateToken Sym.jwtgo jwt32 world0 "alice" "admin" 0
      = (token, Some p, None) /\
      Maker_VerifyToken Sym.jwtgo jwt32 (Now world0) token = (Some p, None)) /\
  (exists token p,
      Maker_CreateToken Sym.jwtgo paseto32 world0 "alice" "admin" 0
      = (token, Some p, None) /\
      Maker_VerifyToken Sym.jwtgo paseto32 (Now world0) token
      = (Some p, None)) /\
  ~ expired_at_once_as_stated.
Proof.
  split; [|split].
  - eexists. eexists. split; [reflexivity|]. vm_compute. reflexivity.
  - eexists. eexists. split; [reflexivity|]. vm_compute. reflexivity.
  - intros H.
    specialize (H Sym.jwtgo jwt32 world0 "alice" "admin" 0
                  (token_of (Maker_CreateToken Sym.jwtgo jwt32 world0
                                               "alice" "admin" 0))
                  (mkPayload "7f3c" "alice" "admin" 1000 1000)
                  Sym_jwtgo_contract).
    assert (Hle : 0 <= 0) by lia.
    specialize (H Hle eq_refl eq_refl).
    vm_compute in H. discriminate H.
Qed.

(** C5 (as amended).  The signed maker's key function asserts that the
    method named by the header is of the HMAC type: a token that names a
    method outside the HMAC family is rejected with [ErrInvalidToken]; a
    token that names any HMAC method (HS256, HS384 or HS512) is checked
    under that method with the maker's key and, when its signature checks
    and it is not expired, its payload is returned. *)
Theorem C5_algorithm_gate
        (L : jwt.Lib) (m : JWTMaker) (now : Z) (token : string)
        (tok : jwt.Token) :
  jwt.ParseUnverified L token (jwt.PayloadClaims zeroPayload) = Some tok ->
  (jwt.isSigningMethodHMAC (jwt.Method tok) = false ->
   JWT.VerifyToken L m now token = (None, Some ErrInvalidToken)) /\
  (forall p,
      jwt.isSigningMethodHMAC (jwt.Method tok) = true ->
      jwt.Verify L (jwt.Method tok) (jwt.SigningString tok)
                 (jwt.Signature tok) (secretKey m) = true ->
      jwt.TokenClaims tok = jwt.PayloadClaims p ->
      now <= ExpiredAt p ->
      JWT.VerifyToken L m now token = (Some p, None)).
Proof.
  intros Hparse. rewrite JWT_VerifyToken_classify. unfold authenticated.
  rewrite Hparse. split.
  - intros Hm. now rewrite Hm.
  - intros p Hm Hver Hclaims Hnow. rewrite Hm, Hver, Hclaims. simpl.
    assert (Hfresh : (now >? ExpiredAt p) = false)
      by (rewrite Z.gtb_ltb; apply Z.ltb_ge; lia).
    now rewrite Hfresh.
Qed.

Lemma C5_witness :
  (jwt.isSigningMethodHMAC jwt.RS256 = false ->
   JWT.VerifyToken Sym.jwtgo (mkJWTMaker key32) 1000 token_RS256
   = (None, Some ErrInvalidToken)) /\
  (forall p,
      jwt.isSigningMethodHMAC jwt.RS256 = true ->
      jwt.Verify Sym.jwtgo jwt.RS256
                 (Sym.signingString jwt.RS256 (Sym.marshal payload0))
                 "sig" key32 = true ->
      jwt.PayloadClaims payload0 = jwt.PayloadClaims p ->
      1000 <= ExpiredAt p ->
      JWT.VerifyToken Sym.jwtgo (mkJWTMaker key32) 1000 token_RS256
      = (Some p, None)).
Proof.
  apply (C5_algorithm_gate Sym.jwtgo (mkJWTMaker key32) 1000 token_RS256
           (jwt.mkToken jwt.RS256 (jwt.PayloadClaims payload0)
                        (Sym.signingString jwt.RS256 (Sym.marshal payload0))
                        "sig")).
  vm_compute. reflexivity.
Defined.

(** C5 as worded fails on a token whose header names HS512 and whose
    signature is the HS512 signature under the maker's key: the key function
    lets it through and [VerifyToken] returns its payload. *)
Lemma C5_counterexample :
  (exists token tok,
      jwt.SignedString Sym.jwtgo jwt.HS512 (Some payload0) key32
      = (token, None) /\
      jwt.ParseUnverified Sym.jwtgo token (jwt.PayloadClaims zeroPayload)
      = Some tok /\
      jwt.Method tok = jwt.HS512 /\
      JWT.VerifyToken Sym.jwtgo (mkJWTMaker key32) 1000 token
      = (Some payload0, None)) /\
  ~ other_algorithm_rejected_as_stated.
Proof.
  assert (Hconcrete :
            exists token tok,
              jwt.SignedString Sym.jwtgo jwt.HS512 (Some payload0) key32
              = (token, None) /\
              jwt.ParseUnverified Sym.jwtgo token
                                  (jwt.PayloadClaims zeroPayload)
              = Some tok /\
              jwt.Method tok = jwt.HS512 /\
              JWT.VerifyToken Sym.jwtgo (mkJWTMaker key32) 1000 token
              = (Some payload0, None)).
  { eexists. eexists. split; [reflexivity|].
    split; [vm_compute; reflexivity|].
    split; [reflexivity|]. vm_compute. reflexivity. }
  split; [exact Hconcrete|].
  intros H. destruct Hconcrete as (token & tok & _ & Hparse & Hm & Hver).
  rewrite (H Sym.jwtgo (mkJWTMaker key32) 1000 token tok
             Sym_jwtgo_contract Hparse) in Hver.
  - discriminate Hver.
  - rewrite Hm. discriminate.
Qed.

(** The symbolic libraries are ideal in the sense of [JwtIdealMac] and
    [PasetoIdealAead]. *)

Lemma append_cancel_r (a b s : string) : a ++ s = b ++ s -> a = b.
Proof.
  intros H.
  assert (Hlen : String.length a = String.length b).
  { apply (f_equal String.length) in H. rewrite !length_append in H. lia. }
  revert b H Hlen.
  induction a as [|x a IH]; intros [|y b] H Hlen; simpl in *;
    try discriminate; [reflexivity|].
  injection H as -> H. f_equal. apply IH; [exact H | lia].
Qed.

Lemma Sym_keyBlock_hmac (m : jwt.SigningMethod) (key : string) :
  Sym.keyBlock m key = hmac_key_block sym_hash m key.
Proof.
  unfold Sym.keyBlock, hmac_key_block, sym_hash.
  now destruct (Sym.blockSize m <? String.length key)%nat.
Qed.

Lemma Sym_jwtgo_ideal : JwtIdealMac Sym.jwtgo sym_hash.
Proof.
  split.
  - intros m s sig k k' _ Hblock. simpl. unfold Sym.Verify, Sym.mac.
    now rewrite !Sym_keyBlock_hmac, Hblock.
  - intros m p k k' t tok p0 Hm Hsigned Hparse Hver. simpl in *.
    unfold Sym.SignedString in Hsigned. rewrite Hm in Hsigned.
    injection Hsigned as <-.
    unfold Sym.ParseUnverified in Hparse.
    unfold Sym.signingString at 1 in Hparse.
    rewrite !append_assoc, unframe_frame, GetSigningMethod_alg,
      unframe_frame, unframe_frame_end, unmarshal_marshal in Hparse.
    injection Hparse as <-. simpl in Hver.
    unfold Sym.Verify in Hver. rewrite Hm in Hver. simpl in Hver.
    apply String.eqb_eq in Hver. unfold Sym.mac in Hver.
    apply append_cancel_r in Hver.
    now rewrite <- !Sym_keyBlock_hmac.
Qed.

Lemma Sym_v2_ideal : PasetoIdealAead Sym.v2.
Proof.
  split. intros k k' p rnd t p0 Henc Hneq. simpl in *.
  unfold Sym.Encrypt in Henc.
  destruct (len k =? chacha20poly1305.KeySize); [|discriminate].
  unfold Sym.Decrypt.
  destruct (len k' =? chacha20poly1305.KeySize); [|simpl; discriminate].
  assert (Hk : (k =? k')%string = false) by now apply String.eqb_neq.
  destruct p as [p|]; injection Henc as <-;
    rewrite !unframe_frame; [rewrite unframe_frame_end | simpl];
    rewrite Hk; simpl; discriminate.
Qed.

(** A key shorter than the block and the same key followed by a zero byte
    have one HMAC key block, whatever the hash. *)
Lemma hmac_key_block_NUL (hash : jwt.SigningMethod -> string -> string)
      (m : jwt.SigningMethod) (key : string) :
  len key < 64 ->
  hmac_key_block hash m (key ++ NUL) = hmac_key_block hash m key.
Proof.
  unfold len, hmac_key_block; intros Hlen.
  pose proof (blockSize_min m) as Hb.
  assert (H1 : (Sym.blockSize m <? String.length (key ++ NUL))%nat = false)
    by (apply Nat.ltb_ge; rewrite length_append; simpl; lia).
  assert (H2 : (Sym.blockSize m <? String.length key)%nat = false)
    by (apply Nat.ltb_ge; lia).
  rewrite H1, H2, length_append, append_assoc; simpl String.length.
  replace (Sym.blockSize m - String.length key)%nat
    with (S (Sym.blockSize m - (String.length key + 1)))%nat by lia.
  now rewrite zeros_succ.
Qed.

(** C7 (as amended).  For every token created under one key, and every
    maker of the same scheme constructed with another key, [VerifyToken]
    returns [ErrInvalidToken] exactly when the two keys are different keys
    for the primitive of the scheme: for the encrypted maker, whenever the
    keys differ; for the signed maker, whenever their HMAC key blocks
    differ (HMAC hashes a key longer than its 64-byte block and pads the
    key with zero bytes to the block, so a key shorter than the block and
    the same key followed by zero bytes are one HMAC key).  The MAC and the
    authenticated cipher are taken as ideal. *)
Theorem C7_verification_under_another_key
        (L : jwt.Lib) (V : paseto.V2)
        (hash : jwt.SigningMethod -> string -> string)
        (scheme : Scheme) (key key' : string) (maker maker' : Maker)
        (w : World) (username role : string) (duration : Z)
        (token : string) (p : Payload) (now : Z) :
  JwtContract L -> PasetoContract V ->
  JwtIdealMac L hash -> PasetoIdealAead V ->
  NewMaker V scheme key = (Some maker, None) ->
  NewMaker V scheme key' = (Some maker', None) ->
  Maker_CreateToken L maker w username role duration
  = (token, Some p, None) ->
  wire_ok L maker p = true ->
  (Maker_VerifyToken L maker' now token = (None, Some ErrInvalidToken) <->
   keys_distinct hash scheme key key').
Proof.
  intros HL HV HLi HVi Hnew Hnew' Hcreate Hwire.
  assert (Hown : forall now0,
             Maker_VerifyToken L maker now0 token
             <> (None, Some ErrInvalidToken)).
  { intros now0.
    assert (Hlib : libraries_ok L maker).
    { destruct scheme; simpl in Hnew.
      - unfold JWT.NewJWTMaker in Hnew.
        destruct (len key <? minSecretKeySize); [discriminate|].
        injection Hnew as <-. exact HL.
      - unfold PASETO.NewPasetoMaker in Hnew.
        destruct (len key <? chacha20poly1305.KeySize); [discriminate|].
        injection Hnew as <-. exact HV. }
    rewrite VerifyToken_classify,
      (created_authenticated _ _ _ _ _ _ _ _ Hlib Hcreate Hwire).
    destruct (now0 >? ExpiredAt p); discriminate. }
  apply CreateToken_inv in Hcreate. destruct Hcreate as [_ Hcreate].
  destruct scheme; simpl in Hnew, Hnew' |- *.
  - unfold JWT.NewJWTMaker in Hnew, Hnew'.
    destruct (len key <? minSecretKeySize); [discriminate|].
    destruct (len key' <? minSecretKeySize); [discriminate|].
    injection Hnew as <-. injection Hnew' as <-. simpl in *.
    destruct (sign_parse L HL jwt.HS256 p key zeroPayload eq_refl Hwire)
      as (t & tok & Hs & Hparse & Hmeth & Hclaims & Hver).
    unfold jwt.SigningMethodHS256 in Hcreate. rewrite Hs in Hcreate.
    injection Hcreate as ->.
    rewrite JWT_VerifyToken_classify. unfold authenticated.
    rewrite Hparse, Hmeth. simpl.
    split.
    + intros Hinv Hblock.
      rewrite <- (verify_key_block L hash HLi jwt.HS256 _ _ key key'
                                   eq_refl Hblock), Hver, Hclaims in Hinv.
      destruct (now >? ExpiredAt p); discriminate.
    + intros Hdist.
      destruct (jwt.Verify L jwt.HS256 (jwt.SigningString tok)
                           (jwt.Signature tok) key') eqn:Hver';
        [|reflexivity].
      exfalso. apply Hdist.
      apply (mac_unforgeable L hash HLi jwt.HS256 p key key' token tok
                             zeroPayload eq_refl Hs Hparse).
      now rewrite Hmeth.
  - unfold PASETO.NewPasetoMaker in Hnew, Hnew'.
    destruct (len key <? chacha20poly1305.KeySize); [discriminate|].
    destruct (len key' <? chacha20poly1305.KeySize); [discriminate|].
    injection Hnew as <-. injection Hnew' as <-. simpl in *.
    split.
    + intros Hinv Heq. subst key'. exact (Hown now Hinv).
    + intros Hneq. rewrite (PASETO_VerifyToken_classify L).
      unfold authenticated. simpl.
      pose proof (aead_other_key V HVi key key' (Some p) (RandBytes w)
                                 token zeroPayload Hcreate Hneq) as Hdec.
      destruct (paseto.Decrypt V token key' zeroPayload) as [q [err|]];
        [reflexivity|]. now elim Hdec.
Qed.

Lemma C7_witness :
  Maker_VerifyToken Sym.jwtgo jwt32' 1000
    (token_of (Maker_CreateToken Sym.jwtgo jwt32 world0 "alice" "admin" 60))
  = (None, Some ErrInvalidToken) <->
  keys_distinct sym_hash Signed key32 key32'.
Proof.
  apply (C7_verification_under_another_key
           Sym.jwtgo Sym.v2 sym_hash Signed key32 key32' jwt32 jwt32'
           world0 "alice" "admin" 60 _ payload0 1000
           Sym_jwtgo_contract Sym_v2_contract Sym_jwtgo_ideal Sym_v2_ideal).
  - reflexivity.
  - reflexivity.
  - reflexivity.
  - reflexivity.
Defined.

(** C7 as worded fails on the signed maker for the keys [key32] and [key32]
    followed by a zero byte: both are accepted by [NewJWTMaker], they
    differ, and the maker of the second returns the payload of a token that
    the maker of the first created. *)
Lemma C7_counterexample :
  JWT.NewJWTMaker key32 = (Some (mkJWTMaker key32), None) /\
  JWT.NewJWTMaker key32_NUL = (Some (mkJWTMaker key32_NUL), None) /\
  key32 <> key32_NUL /\
  (exists token,
      Maker_CreateToken Sym.jwtgo jwt32 world0 "alice" "admin" 60
      = (token, Some payload0, None) /\
      Maker_VerifyToken Sym.jwtgo jwt32_NUL 1000 token
      = (Some payload0, None)) /\
  ~ other_key_rejected_as_stated.
Proof.
  assert (Hneq : key32 <> key32_NUL) by (vm_compute; discriminate).
  assert (Hconcrete :
            exists token,
              Maker_CreateToken Sym.jwtgo jwt32 world0 "alice" "admin" 60
              = (token, Some payload0, None) /\
              Maker_VerifyToken Sym.jwtgo jwt32_NUL 1000 token
              = (Some payload0, None)).
  { eexists. split; [reflexivity|]. vm_compute. reflexivity. }
  split; [reflexivity|]. split; [reflexivity|]. split; [exact Hneq|].
  split; [exact Hconcrete|].
  intros H. destruct Hconcrete as (token & Hcreate & Hver).
  rewrite (H Sym.jwtgo jwt32 jwt32_NUL world0 "alice" "admin" 60 token
             payload0 1000 Sym_jwtgo_contract Sym_jwtgo_contract
             eq_refl Hneq Hcreate eq_refl) in Hver.
  discriminate Hver.
Qed.


(** * Further properties of the two makers *)

(** ** What [VerifyToken] lets through *)

(** [VerifyToken] of either maker returns a payload exactly when the token
    passes the maker's checks under the maker's key with that payload and
    the clock is not past the payload's expiry: nothing is accepted without
    the signature check or the decryption, and the payload returned is the
    one the token carries. *)
Theorem VerifyToken_accepts_iff
        (L : jwt.Lib) (maker : Maker) (now : Z) (token : string)
        (p : Payload) :
  Maker_VerifyToken L maker now token = (Some p, None) <->
  authenticated L maker token = Some p /\ now <= ExpiredAt p.
Proof.
  rewrite VerifyToken_classify.
  destruct (authenticated L maker token) as [q|].
  - destruct (now >? ExpiredAt q) eqn:Hnow; split.
    + discriminate.
    + intros [Hq Hle]. injection Hq as ->. lia.
    + intros H. injection H as ->. split; [reflexivity | lia].
    + intros [Hq _]. now injection Hq as ->.
  - split; [discriminate | intros [Hq _]; discriminate].
Qed.

(** The only errors that leave [VerifyToken] are the package's two
    sentinels: an error of a library (decoding, signature, decryption) is
    never handed to the caller. *)
Theorem VerifyToken_errors_are_sentinels
        (L : jwt.Lib) (maker : Maker) (now : Z) (token : string) :
  snd (Maker_VerifyToken L maker now token) = None \/
  snd (Maker_VerifyToken L maker now token) = Some ErrInvalidToken \/
  snd (Maker_VerifyToken L maker now token) = Some ErrExpiredToken.
Proof.
  rewrite VerifyToken_classify.
  destruct (authenticated L maker token) as [p|]; [|auto].
  destruct (now >? ExpiredAt p); auto.
Qed.

(** A token that fails the cryptographic check is reported invalid at every
    clock reading, whatever its claims say about expiry: a signed token
    that does not decode or whose signature does not check under the
    maker's key, and an encrypted token whose decryption fails. *)
Theorem failed_check_is_invalid_not_expired
        (L : jwt.Lib) (now : Z) (token : string) :
  (forall m,
      jwt.ParseUnverified L token (jwt.PayloadClaims zeroPayload) = None ->
      JWT.VerifyToken L m now token = (None, Some ErrInvalidToken)) /\
  (forall m tok,
      jwt.ParseUnverified L token (jwt.PayloadClaims zeroPayload) = Some tok ->
      jwt.Verify L (jwt.Method tok) (jwt.SigningString tok)
                 (jwt.Signature tok) (secretKey m) = false ->
      JWT.VerifyToken L m now token = (None, Some ErrInvalidToken)) /\
  (forall m p err,
      paseto.Decrypt (paseto_ m) token (symmetricKey m) zeroPayload
      = (p, Some err) ->
      PASETO.VerifyToken m now token = (None, Some ErrInvalidToken)).
Proof.
  split; [|split].
  - intros m Hparse. rewrite JWT_VerifyToken_classify. unfold authenticated.
    now rewrite Hparse.
  - intros m tok Hparse Hver. rewrite JWT_VerifyToken_classify.
    unfold authenticated. rewrite Hparse, Hver.
    now rewrite Bool.andb_false_r.
  - intros m p err Hdec.
    rewrite (PASETO_VerifyToken_classify L). unfold authenticated.
    now rewrite Hdec.
Qed.

(** ** Verdicts over time *)

(** The clock only moves a token from accepted to expired.  Between two
    clock readings [now <= now']: the token is invalid at one exactly when
    it is invalid at the other; if it is accepted at the later reading it is
    accepted, with the same payload, at the earlier one; and if it is
    expired at the earlier reading it is expired at the later one. *)
Theorem VerifyToken_over_time
        (L : jwt.Lib) (maker : Maker) (token : string) (now now' : Z) :
  now <= now' ->
  (Maker_VerifyToken L maker now token = (None, Some ErrInvalidToken) <->
   Maker_VerifyToken L maker now' token = (None, Some ErrInvalidToken)) /\
  (forall p,
      Maker_VerifyToken L maker now' token = (Some p, None) ->
      Maker_VerifyToken L maker now token = (Some p, None)) /\
  (Maker_VerifyToken L maker now token = (None, Some ErrExpiredToken) ->
   Maker_VerifyToken L maker now' token = (None, Some ErrExpiredToken)).
Proof.
  intros Hle. rewrite !VerifyToken_classify.
  destruct (authenticated L maker token) as [q|].
  - destruct (now >? ExpiredAt q) eqn:H1, (now' >? ExpiredAt q) eqn:H2;
      repeat split; intros; try discriminate; try assumption;
      try reflexivity; exfalso; lia.
  - repeat split; intros; try discriminate; reflexivity.
Qed.

Lemma VerifyToken_over_time_witness :
  (Maker_VerifyToken Sym.jwtgo jwt32 1000
     (token_of (Maker_CreateToken Sym.jwtgo jwt32 world0 "alice" "admin" 60))
   = (None, Some ErrInvalidToken) <->
   Maker_VerifyToken Sym.jwtgo jwt32 1100
     (token_of (Maker_CreateToken Sym.jwtgo jwt32 world0 "alice" "admin" 60))
   = (None, Some ErrInvalidToken)) /\
  (forall p,
      Maker_VerifyToken Sym.jwtgo jwt32 1100
        (token_of (Maker_CreateToken Sym.jwtgo jwt32 world0 "alice" "admin" 60))
      = (Some p, None) ->
      Maker_VerifyToken Sym.jwtgo jwt32 1000
        (token_of (Maker_CreateToken Sym.jwtgo jwt32 world0 "alice" "admin" 60))
      = (Some p, None)) /\
  (Maker_VerifyToken Sym.jwtgo jwt32 1000
     (token_of (Maker_CreateToken Sym.jwtgo jwt32 world0 "alice" "admin" 60))
   = (None, Some ErrExpiredToken) ->
   Maker_VerifyToken Sym.jwtgo jwt32 1100
     (token_of (Maker_CreateToken Sym.jwtgo jwt32 world0 "alice" "admin" 60))
   = (None, Some ErrExpiredToken)).
Proof.
  apply (VerifyToken_over_time Sym.jwtgo jwt32
           (token_of (Maker_CreateToken Sym.jwtgo jwt32 world0
                                        "alice" "admin" 60))
           1000 1100).
  vm_compute. discriminate.
Defined.

(** A token that a maker created is never invalid for that maker: at every
    clock reading [VerifyToken] returns the created payload up to and
    including [issuedAt + duration], and [ErrExpiredToken] after it, for
    every duration. *)
Theorem created_token_lifetime
        (L : jwt.Lib) (maker : Maker) (w : World) (username role : string)
        (duration : Z) (token : string) (p : Payload) (now' : Z) :
  libraries_ok L maker ->
  Maker_CreateToken L maker w username role duration
  = (token, Some p, None) ->
  wire_ok L maker p = true ->
  Maker_VerifyToken L maker now' token
  = if now' >? Now w + duration then (None, Some ErrExpiredToken)
    else (Some p, None).
Proof.
  intros Hlib Hcreate Hwire.
  rewrite VerifyToken_classify,
    (created_authenticated _ _ _ _ _ _ _ _ Hlib Hcreate Hwire).
  apply CreateToken_inv in Hcreate. destruct Hcreate as [Hp _].
  destruct (NewPayload_fields _ _ _ _ _ Hp) as (_ & _ & _ & Hexp).
  now rewrite Hexp.
Qed.

Lemma created_token_lifetime_witness :
  Maker_VerifyToken Sym.jwtgo paseto32 1061
    (token_of (Maker_CreateToken Sym.jwtgo paseto32 world0 "alice" "admin" 60))
  = if 1061 >? Now world0 + 60 then (None, Some ErrExpiredToken)
    else (Some payload0, None).
Proof.
  apply (created_token_lifetime Sym.jwtgo paseto32 world0 "alice" "admin" 60
           _ payload0 1061 Sym_v2_contract).
  - reflexivity.
  - reflexivity.
Defined.

(** The two formats are interchangeable for the caller: a signed and an
    encrypted token (or any two tokens) created from the same inputs in the
    same environment carry the same payload and get the same verdict from
    their makers at every clock reading. *)
Theorem makers_interchangeable
        (L : jwt.Lib) (a b : Maker) (w : World) (username role : string)
        (duration : Z) (ta tb : string) (pa pb : Payload) (now : Z) :
  libraries_ok L a -> libraries_ok L b ->
  Maker_CreateToken L a w username role duration = (ta, Some pa, None) ->
  Maker_CreateToken L b w username role duration = (tb, Some pb, None) ->
  wire_ok L a pa = true -> wire_ok L b pb = true ->
  pa = pb /\
  Maker_VerifyToken L a now ta = Maker_VerifyToken L b now tb.
Proof.
  intros Hla Hlb Hca Hcb Hwa Hwb.
  rewrite !VerifyToken_classify,
    (created_authenticated _ _ _ _ _ _ _ _ Hla Hca Hwa),
    (created_authenticated _ _ _ _ _ _ _ _ Hlb Hcb Hwb).
  apply CreateToken_inv in Hca, Hcb.
  destruct Hca as [Hpa _], Hcb as [Hpb _].
  rewrite Hpa in Hpb. injection Hpb as <-. split; reflexivity.
Qed.

Lemma makers_interchangeable_witness :
  payload0 = payload0 /\
  Maker_VerifyToken Sym.jwtgo jwt32 1030
    (token_of (Maker_CreateToken Sym.jwtgo jwt32 world0 "alice" "admin" 60))
  = Maker_VerifyToken Sym.jwtgo paseto32 1030
      (token_of (Maker_CreateToken Sym.jwtgo paseto32 world0
                                   "alice" "admin" 60)).
Proof.
  apply (makers_interchangeable Sym.jwtgo jwt32 paseto32 world0
           "alice" "admin" 60 _ _ payload0 payload0 1030
           Sym_jwtgo_contract Sym_v2_contract).
  - reflexivity.
  - reflexivity.
  - reflexivity.
  - reflexivity.
Defined.

(** ** What [CreateToken] hands back *)

(** Whenever [CreateToken] of either maker returns a nil error, the payload
    it returns is not nil and is the one built from the arguments: the
    identifier drawn, the username and role given, the time of the call as
    [issuedAt] and that time plus the duration as [expiredAt].  This holds
    for every library and every key. *)
Theorem CreateToken_payload_matches_inputs
        (L : jwt.Lib) (maker : Maker) (w : World) (username role : string)
        (duration : Z) (token : string) (payload : option Payload) :
  Maker_CreateToken L maker w username role duration
  = (token, payload, None) ->
  exists p,
    payload = Some p /\
    ID p = fst (NewRandom w) /\
    Username p = username /\ Role p = role /\
    IssuedAt p = Now w /\ ExpiredAt p = Now w + duration.
Proof.
  destruct maker as [m|m]; simpl;
    unfold JWT.CreateToken, PASETO.CreateToken, NewPayload;
    destruct (NewRandom w) as [id [err|]]; try discriminate; simpl.
  - destruct (jwt.SignedString L _ _ _) as [t e].
    intros H. injection H as _ <- _. eexists. split; [reflexivity|].
    simpl. auto.
  - destruct (paseto.Encrypt _ _ _ _) as [t e].
    intros H. injection H as _ <- _. eexists. split; [reflexivity|].
    simpl. auto.
Qed.

Lemma CreateToken_payload_matches_inputs_witness :
  exists p,
    Some payload0 = Some p /\
    ID p = fst (NewRandom world0) /\
    Username p = "alice" /\ Role p = "admin" /\
    IssuedAt p = Now world0 /\ ExpiredAt p = Now world0 + 60.
Proof.
  apply (CreateToken_payload_matches_inputs Sym.jwtgo jwt32 world0
           "alice" "admin" 60
           (token_of (Maker_CreateToken Sym.jwtgo jwt32 world0
                                        "alice" "admin" 60))
           (Some payload0)).
  reflexivity.
Defined.

(** Every key longer than the cipher's key size gets a maker from
    [NewPasetoMaker], and that maker never creates a token: each call of
    [CreateToken] returns the empty string and an error. *)
Theorem PASETO_longer_key_never_creates
        (L : jwt.Lib) (V : paseto.V2) (key : string) :
  PasetoContract V ->
  chacha20poly1305.KeySize < len key ->
  exists maker,
    PASETO.NewPasetoMaker V key = (Some maker, None) /\
    forall w username role duration,
    exists p err,
      Maker_CreateToken L maker w username role duration
      = ("", p, Some err).
Proof.
  intros HV Hlen. exists (MakerPaseto (mkPasetoMaker V key)). split.
  - unfold PASETO.NewPasetoMaker.
    assert (H : (len key <? chacha20poly1305.KeySize) = false)
      by (apply Z.ltb_ge; lia).
    now rewrite H.
  - intros w username role duration. simpl.
    apply PASETO_CreateToken_key_size; simpl; [exact HV | lia].
Qed.

Lemma PASETO_longer_key_never_creates_witness :
  exists maker,
    PASETO.NewPasetoMaker Sym.v2 key33 = (Some maker, None) /\
    forall w username role duration,
    exists p err,
      Maker_CreateToken Sym.jwtgo maker w username role duration
      = ("", p, Some err).
Proof.
  apply (PASETO_longer_key_never_creates Sym.jwtgo Sym.v2 key33
           Sym_v2_contract).
  reflexivity.
Defined.

(** A token that the signed maker created names HS256 in its header, carries
    the payload that was returned with it, and its signature checks under
    the maker's key with HS256. *)
Theorem JWT_created_token_declares_HS256
        (L : jwt.Lib) (m : JWTMaker) (w : World) (username role : string)
        (duration : Z) (token : string) (p : Payload) :
  JwtContract L ->
  JWT.CreateToken L m w username role duration = (token, Some p, None) ->
  jwt.encodable L p = true ->
  exists tok,
    jwt.ParseUnverified L token (jwt.PayloadClaims zeroPayload) = Some tok /\
    jwt.Method tok = jwt.HS256 /\
    jwt.TokenClaims tok = jwt.PayloadClaims p /\
    jwt.Verify L jwt.HS256 (jwt.SigningString tok) (jwt.Signature tok)
               (secretKey m) = true.
Proof.
  intros HL Hcreate Hp.
  destruct (CreateToken_inv L (MakerJWT m) _ _ _ _ _ _ Hcreate)
    as [_ Hsigned].
  destruct (sign_parse L HL jwt.HS256 p (secretKey m) zeroPayload
                       eq_refl Hp)
    as (t & tok & Hs & Hparse & Hmeth & Hclaims & Hver).
  unfold jwt.SigningMethodHS256 in Hsigned. rewrite Hs in Hsigned.
  injection Hsigned as <-. exists tok. auto.
Qed.

Lemma JWT_created_token_declares_HS256_witness :
  exists tok,
    jwt.ParseUnverified Sym.jwtgo
      (token_of (JWT.CreateToken Sym.jwtgo (mkJWTMaker key32) world0
                                 "alice" "admin" 60))
      (jwt.PayloadClaims zeroPayload) = Some tok /\
    jwt.Method tok = jwt.HS256 /\
    jwt.TokenClaims tok = jwt.PayloadClaims payload0 /\
    jwt.Verify Sym.jwtgo jwt.HS256 (jwt.SigningString tok)
               (jwt.Signature tok) (secretKey (mkJWTMaker key32)) = true.
Proof.
  apply (JWT_created_token_declares_HS256 Sym.jwtgo (mkJWTMaker key32)
           world0 "alice" "admin" 60 _ payload0 Sym_jwtgo_contract).
  - reflexivity.
  - reflexivity.
Defined.
